(** * jungamer-64/OS: the build and boot-capture scripts

    A shallow embedding of the two Python helper scripts of the repository,

    - [create_bootimage.py]   (module [CreateBootimage], function [main]),
    - [temp_qemu_capture.py]  (module [TempQemuCapture], the module body),

    together with the statements of the specification that concern them.

    Both scripts are straight-line orchestration code whose whole behaviour
    consists of effects: they test files for existence, start one external
    process, print status lines and (the capture script) write one file.
    The embedding therefore runs them in a small state-and-exception monad
    over an explicit environment:

    - the filesystem is a finite map from path strings to entries;
    - the external process and the operating system are oracles of the
      environment ([Env]): a script never learns more of them than their
      answers, and every theorem quantifies over all environments;
    - every observable action is recorded, in program order, in a trace of
      [Event]s, so that "was the builder invoked", "what was printed" and
      "what was written, and when" are ordinary list properties. *)

From Stdlib Require Import ZArith Ascii String List.
From stdpp Require Import base option list strings pretty gmap fin_maps.

Local Open Scope Z_scope.

(* ===================================================================== *)
(** * The Python runtime, as far as the scripts use it *)
(* ===================================================================== *)

Module Py.

(** ** Text

    A Python [str] is modelled as a Rocq [string] holding its UTF-8 bytes;
    the two non-ASCII characters of the scripts (the check mark and the
    ballot cross) are three bytes each. *)

Definition nl : string := String "010"%char EmptyString.
Definition backslash : ascii := "092"%char.
Definition squote : ascii := "039"%char.
Definition dquote : ascii := "034"%char.

(** Truthiness of a [str]: [if s:] holds for every non-empty string. *)
Definition truthy (s : string) : bool :=
  match s with EmptyString => false | String _ _ => true end.

(** [sep.join(xs)]. *)
Definition join (sep : string) (xs : list string) : string :=
  String.concat sep xs.

(** [str(n)] for an [int]. *)
Definition str_int (n : Z) : string := pretty n.

(** [needle in hay]. *)
Fixpoint contains (needle hay : string) : bool :=
  String.prefix needle hay
  || match hay with
     | EmptyString => false
     | String _ hay' => contains needle hay'
     end.

Definition char_in (c : ascii) (s : string) : bool :=
  contains (String c EmptyString) s.

Definition hex_digit (n : N) : ascii :=
  ascii_of_N (if (n <? 10)%N then 48 + n else 87 + n)%N.

(** [repr(s)] for a [str]: single quotes unless the text holds a single
    quote and no double quote; the backslash, the chosen quote and the
    control characters are escaped.  (Bytes from 128 up belong to UTF-8
    sequences and are kept: the escapes [repr] uses for unprintable
    non-ASCII code points are outside the model.) *)
Definition repr_char (q c : ascii) : string :=
  if Ascii.eqb c backslash then String backslash (String backslash EmptyString)
  else if Ascii.eqb c q then String backslash (String q EmptyString)
  else if Ascii.eqb c "010" then String backslash "n"
  else if Ascii.eqb c "013" then String backslash "r"
  else if Ascii.eqb c "009" then String backslash "t"
  else let n := N_of_ascii c in
       if ((n <? 32) || (n =? 127))%N
       then String backslash
              (String "x" (String (hex_digit (n / 16)) (String (hex_digit (n mod 16)) EmptyString)))
       else String c EmptyString.

Fixpoint repr_body (q : ascii) (s : string) : string :=
  match s with
  | EmptyString => EmptyString
  | String c s' => repr_char q c +:+ repr_body q s'
  end.

Definition repr_str (s : string) : string :=
  let q := if char_in squote s && negb (char_in dquote s) then dquote else squote in
  String q (repr_body q s) +:+ String q EmptyString.

(** [str(xs)] for a list of [str]. *)
Definition str_list (xs : list string) : string :=
  "[" +:+ join ", " (map repr_str xs) +:+ "]".

(** ** pathlib

    [pathlib.Path] picks its flavour from the platform the script runs on.
    A path is its drive, its root and the remaining components. *)

Inductive flavour := Posix | Windows.

Record Path := mkPath { drive : string; root : string; tail : list string }.

Definition sep (fl : flavour) : string :=
  match fl with Posix => "/" | Windows => String backslash EmptyString end.

Definition is_sep (fl : flavour) (c : ascii) : bool :=
  match fl with
  | Posix => Ascii.eqb c "/"
  | Windows => Ascii.eqb c "/" || Ascii.eqb c backslash
  end.

(** Splitting at separators; [cur] is the component being read. *)
Fixpoint split_on (is_s : ascii -> bool) (s cur : string) : list string :=
  match s with
  | EmptyString => [cur]
  | String c s' =>
      if is_s c then cur :: split_on is_s s' EmptyString
      else split_on is_s s' (cur +:+ String c EmptyString)
  end.

(** Empty components and [.] are dropped when a path is parsed. *)
Definition keep_part (p : string) : bool :=
  truthy p && negb (String.eqb p ".").

Definition components (fl : flavour) (s : string) : list string :=
  filter (fun p => keep_part p = true) (split_on (is_sep fl) s EmptyString).

Fixpoint leading_seps (fl : flavour) (s : string) : nat :=
  match s with
  | String c s' => if is_sep fl c then S (leading_seps fl s') else O
  | EmptyString => O
  end.

(** [ntpath.splitdrive] for a drive-letter path: two characters, the second
    a colon.  (UNC shares are outside the model: the scripts name none.) *)
Definition split_drive (fl : flavour) (s : string) : string * string :=
  match fl, s with
  | Windows, String c (String ":" rest) => (String c ":", rest)
  | _, _ => (EmptyString, s)
  end.

(** [Path(s)]. *)
Definition parse (fl : flavour) (s : string) : Path :=
  let '(drv, rest) := split_drive fl s in
  let rt :=
    match fl, leading_seps fl rest with
    | _, O => EmptyString
    | Posix, 2%nat => "//"
    | _, _ => sep fl
    end in
  mkPath drv rt (components fl rest).

(** [p / s]: a segment with an anchor of its own replaces the left side (on
    Windows a rooted segment without a drive keeps the drive); any other
    segment is appended. *)
Definition truediv (fl : flavour) (p : Path) (s : string) : Path :=
  let q := parse fl s in
  if truthy (drive q) then
    if String.eqb (drive q) (drive p) && negb (truthy (root q))
    then mkPath (drive p) (root p) (tail p ++ tail q)
    else q
  else if truthy (root q) then mkPath (drive p) (root q) (tail q)
  else mkPath (drive p) (root p) (tail p ++ tail q).

(** [str(p)], which is also what reaches the operating system. *)
Definition str (fl : flavour) (p : Path) : string :=
  let body := join (sep fl) (tail p) in
  if truthy (drive p) || truthy (root p) then drive p +:+ root p +:+ body
  else if truthy body then body else ".".

(** [p.parent] and [p.name]. *)
Definition parent (p : Path) : Path :=
  mkPath (drive p) (root p) (removelast (tail p)).

Definition name (p : Path) : string := List.last (tail p) EmptyString.

(** ** The world outside the interpreter *)

(** What a path names on disk.  [Path.exists()] is true of either kind. *)
Inductive Entry := File (content : string) | Dir.

(** The result of a child process that ran to its end: the fields of
    [subprocess.CompletedProcess] under [capture_output=True, text=True]. *)
Record CompletedProcess := mkCompleted {
  args : list string;
  returncode : Z;
  stdout : string;
  stderr : string
}.

(** An exception raised by the platform layer ([OSError] and its subclasses
    such as [FileNotFoundError] and [PermissionError], or a codec error):
    its class name and its message.  By construction it is neither
    [SystemExit] nor [subprocess.CalledProcessError]. *)
Record PlatformError := mkPlatformError { exc_class : string; exc_text : string }.

(** How the attempt to run a child process ends.  In both cases the
    filesystem may have been changed by the child. *)
Inductive SpawnOutcome :=
  | Exited (rc : Z) (out err : string) (fs' : gmap string Entry)
  | SpawnRaises (e : PlatformError) (fs' : gmap string Entry).

(** How a failing [write_text] leaves its target: untouched (the file could
    not be opened) or holding [partial] (it was truncated and partly written). *)
Inductive WriteFault :=
  | OpenFails (e : PlatformError)
  | WriteFails (e : PlatformError) (partial : string).

(** The exception a failing write raises. *)
Definition fault_error (w : WriteFault) : PlatformError :=
  match w with OpenFails e => e | WriteFails e _ => e end.

Record Env := mkEnv {
  os_flavour : flavour;
  (** [signal.Signals(n).name], where the platform has a signal [n]. *)
  signal_name : Z -> option string;
  (** [Popen(cmd, cwd=...)] followed by [communicate()]. *)
  spawn : list string -> option string -> gmap string Entry -> SpawnOutcome;
  (** [None]: writing this text to this path succeeds. *)
  write_fault : string -> string -> gmap string Entry -> option WriteFault;
  (** [None]: the codec of standard output has every character of this
      text; otherwise the [UnicodeEncodeError] it raises.  It is asked only
      about text that holds a source literal beyond ASCII. *)
  stdout_refuses : string -> option PlatformError
}.

(** ** Observable actions *)

Inductive Event :=
  | EvPrint (text : string)
  | EvSpawn (cmd : list string) (cwd : option string)
  | EvWrite (path : string) (data : string).

Record State := mkState { fs : gmap string Entry; trace : list Event }.

(** ** Exceptions *)

Record CalledProcessError := mkCalledProcessError {
  cpe_returncode : Z;
  cpe_cmd : list string;
  cpe_output : string;
  cpe_stderr : string
}.

Inductive Exn :=
  | SystemExit (code : Z)
  | ExnCalledProcessError (e : CalledProcessError)
  | ExnPlatform (e : PlatformError).

(** [str(e)] for a [CalledProcessError]. *)
Definition str_CalledProcessError (env : Env) (e : CalledProcessError) : string :=
  let rc := cpe_returncode e in
  if bool_decide (rc ≠ 0) && bool_decide (rc < 0) then
    match signal_name env (- rc) with
    | Some nm =>
        "Command '" +:+ str_list (cpe_cmd e) +:+ "' died with <Signals." +:+ nm +:+ ": "
          +:+ str_int (- rc) +:+ ">."
    | None =>
        "Command '" +:+ str_list (cpe_cmd e) +:+ "' died with unknown signal "
          +:+ str_int (- rc) +:+ "."
    end
  else
    "Command '" +:+ str_list (cpe_cmd e) +:+ "' returned non-zero exit status "
      +:+ str_int rc +:+ ".".

(** ** The monad: environment, state, exceptions *)

Inductive Res (A : Type) :=
  | Ok (a : A)
  | Raise (e : Exn).
Arguments Ok {A} a.
Arguments Raise {A} e.

Definition M (A : Type) : Type := Env -> State -> Res A * State.

#[global] Instance M_ret : MRet M := fun A a _ st => (Ok a, st).

#[global] Instance M_bind : MBind M := fun A B f m env st =>
  match m env st with
  | (Ok a, st') => f a env st'
  | (Raise e, st') => (Raise e, st')
  end.

Definition pass : M unit := mret tt.

Definition raise {A} (e : Exn) : M A := fun _ st => (Raise e, st).

Definition ask : M Env := fun env st => (Ok env, st).

Definition get_fs : M (gmap string Entry) := fun _ st => (Ok (fs st), st).

Definition set_fs (fs' : gmap string Entry) : M unit :=
  fun _ st => (Ok tt, mkState fs' (trace st)).

Definition emit (ev : Event) : M unit :=
  fun _ st => (Ok tt, mkState (fs st) (trace st ++ [ev])).

(** [try: body  except C as e: handler e], where [sel] recognises the
    exceptions of class [C].  Whatever [sel] rejects propagates. *)
Definition try_except {A B} (body : M A) (sel : Exn -> option B) (handler : B -> M A) : M A :=
  fun env st =>
    match body env st with
    | (Ok a, st') => (Ok a, st')
    | (Raise e, st') =>
        match sel e with
        | Some b => handler b env st'
        | None => (Raise e, st')
        end
    end.

Definition as_CalledProcessError (e : Exn) : option CalledProcessError :=
  match e with ExnCalledProcessError c => Some c | _ => None end.

(** ** Library calls *)

(** An argument of [print], by where its text comes from.  [Text]: text
    that every codec of standard output takes, which is ASCII text the
    script builds (its ASCII literals, its paths and command lines,
    numbers, the text of an exception) and text captured from a child
    process, which was decoded by the codec it is now encoded with.
    [NonAscii]: text built from a source literal that holds characters
    beyond ASCII; standard output takes it only if its codec has them. *)
Inductive PrintArg :=
  | Text (s : string)
  | NonAscii (s : string).

Definition arg_text (a : PrintArg) : string :=
  match a with Text s => s | NonAscii s => s end.

Definition arg_refused (refuses : string -> option PlatformError) (a : PrintArg)
  : option PlatformError :=
  match a with Text _ => None | NonAscii s => refuses s end.

(** What one call of [print] hands to standard output, write by write:
    before each argument but the first the separator, then the argument,
    and the newline at the end.  [lead] is the separator due before the
    next argument.  A refused argument stops the call with what was
    written so far. *)
Fixpoint print_writes (refuses : string -> option PlatformError) (lead : string)
    (xs : list PrintArg) : string * option PlatformError :=
  match xs with
  | [] => (nl, None)
  | a :: xs' =>
      match arg_refused refuses a with
      | Some e => (lead, Some e)
      | None =>
          let '(rest, r) := print_writes refuses " " xs' in
          (lead +:+ arg_text a +:+ rest, r)
      end
  end.

(** [print(x, y, ...)]: the arguments joined by one space, then a newline;
    a [UnicodeEncodeError] if standard output cannot encode one of them. *)
Definition print (xs : list PrintArg) : M unit :=
  env ← ask;
  let '(text, r) := print_writes (stdout_refuses env) EmptyString xs in
  match r with
  | None => emit (EvPrint text)
  | Some e =>
      (if truthy text then emit (EvPrint text) else pass);;
      raise (ExnPlatform e)
  end.

(** [sys.exit(code)]. *)
Definition sys_exit {A} (code : Z) : M A := raise (SystemExit code).

(** [p.exists()]. *)
Definition exists_ (p : Path) : M bool :=
  env ← ask; d ← get_fs;
  mret (bool_decide (is_Some (d !! str (os_flavour env) p))).

(** [subprocess.run(cmd, cwd=cwd, check=check, capture_output=True,
    text=True)].  With [check], a non-zero return code becomes a
    [CalledProcessError] carrying the command and both captured texts. *)
Definition subprocess_run (cmd : list string) (cwd : option Path) (check : bool)
  : M CompletedProcess :=
  env ← ask; d ← get_fs;
  let dir := str (os_flavour env) <$> cwd in
  emit (EvSpawn cmd dir);;
  match spawn env cmd dir d with
  | SpawnRaises e d' => set_fs d';; raise (ExnPlatform e)
  | Exited rc out err d' =>
      set_fs d';;
      if check && bool_decide (rc ≠ 0)
      then raise (ExnCalledProcessError (mkCalledProcessError rc cmd out err))
      else mret (mkCompleted cmd rc out err)
  end.

(** [p.write_text(data)]: the file is opened for writing (created or
    truncated), the text written, the file closed. *)
Definition write_text (p : Path) (data : string) : M unit :=
  env ← ask; d ← get_fs;
  let f := str (os_flavour env) p in
  emit (EvWrite f data);;
  match write_fault env f data d with
  | None => set_fs (<[f := File data]> d)
  | Some (OpenFails e) => raise (ExnPlatform e)
  | Some (WriteFails e partial) => set_fs (<[f := File partial]> d);; raise (ExnPlatform e)
  end.

(** ** Running a script as a process *)

Record Run := mkRun { result : Res unit; final : State }.

Definition run_script (script : M unit) (env : Env) (d : gmap string Entry) : Run :=
  let '(r, st) := script env (mkState d []) in mkRun r st.

(** The exit status the interpreter hands to its parent: 0 when the script
    runs off its end, the code of a [SystemExit], and 1 after the traceback
    of any other uncaught exception. *)
Definition exit_status (r : Run) : Z :=
  match result r with
  | Ok _ => 0
  | Raise (SystemExit n) => n
  | Raise _ => 1
  end.

(** What the script printed, call by call, and as one text. *)
Definition printed (r : Run) : list string :=
  omap (fun ev => match ev with EvPrint s => Some s | _ => None end) (trace (final r)).

Definition console (r : Run) : string := String.concat EmptyString (printed r).

(** The child processes the script asked for. *)
Definition spawn_calls (r : Run) : list (list string * option string) :=
  omap (fun ev => match ev with EvSpawn c d => Some (c, d) | _ => None end) (trace (final r)).

(** The file writes the script itself performed. *)
Definition writes (r : Run) : list (string * string) :=
  omap (fun ev => match ev with EvWrite p s => Some (p, s) | _ => None end) (trace (final r)).

End Py.

(* ===================================================================== *)
(** * create_bootimage.py *)
(* ===================================================================== *)

Module CreateBootimage.
Import Py.

(** The two paths of [main], as [pathlib] reads them on the platform. *)
Definition kernel_path (fl : flavour) : Path :=
  parse fl "target/x86_64-blog_os/debug/tiny_os".

Definition output_path (fl : flavour) : Path :=
  parse fl "target/x86_64-blog_os/debug/tiny_os.efi.img".

(** The builder command line. *)
Definition cmd (fl : flavour) : list string :=
  [ "cargo"; "builder";
    "--kernel-binary"; str fl (kernel_path fl);
    "--out-dir"; str fl (parent (output_path fl)) ].

Definition main : M unit :=
  env ← ask;
  let fl := os_flavour env in
  found ← exists_ (kernel_path fl);
  (if negb found then
     print [Text ("Error: Kernel not found at " +:+ str fl (kernel_path fl))];;
     sys_exit 1
   else pass);;
  print [Text ("Creating UEFI boot image from " +:+ str fl (kernel_path fl))];;
  try_except
    (result ← subprocess_run (cmd fl) None true;
     print [Text (stdout result)];;
     if truthy (stderr result)
     then print [Text "Warnings/Info:"; Text (stderr result)]
     else pass)
    as_CalledProcessError
    (fun e =>
       print [Text ("Error creating boot image: " +:+ str_CalledProcessError env e)];;
       print [Text (cpe_stderr e)];;
       sys_exit 1);;
  made ← exists_ (output_path fl);
  if made : bool then
    print [NonAscii ("✓ Boot image created: " +:+ str fl (output_path fl))]
  else
    print [NonAscii "✗ Boot image was not created"];;
    sys_exit 1.

(** [if __name__ == "__main__": main()] *)
Definition script : M unit := main.

End CreateBootimage.

(* ===================================================================== *)
(** * temp_qemu_capture.py *)
(* ===================================================================== *)

Module TempQemuCapture.
Import Py.

Definition workspace (fl : flavour) : Path :=
  parse fl "c:\Users\jungamer64\Desktop\OS".

Definition bin_path (fl : flavour) : Path :=
  truediv fl
    (truediv fl
       (truediv fl (truediv fl (workspace fl) "target") "x86_64-blog_os")
       "debug")
    "bootimage-tiny_os.bin".

Definition cmd (fl : flavour) : list string :=
  [ "qemu-system-x86_64";
    "-drive"; "format=raw,file=" +:+ str fl (bin_path fl);
    "-serial"; "stdio";
    "-display"; "none";
    "-m"; "128M";
    "-no-reboot";
    "-no-shutdown" ].

(** The file the script writes: [workspace / "serial.log"]. *)
Definition serial_log (fl : flavour) : Path := truediv fl (workspace fl) "serial.log".

(** The text the script writes: [out + "\nSTDERR:\n" + err]. *)
Definition log_text (out err : string) : string :=
  (out +:+ (nl +:+ "STDERR:" +:+ nl)) +:+ err.

(** The module body, top to bottom. *)
Definition script : M unit :=
  env ← ask;
  let fl := os_flavour env in
  print [Text "Running:"; Text (join " " (cmd fl))];;
  proc ← subprocess_run (cmd fl) (Some (workspace fl)) false;
  print [Text "QEMU exited with"; Text (str_int (returncode proc))];;
  write_text (serial_log fl) (log_text (stdout proc) (stderr proc)).

End TempQemuCapture.

(* ===================================================================== *)
(** * Concrete environments

    Closed environments and filesystems on which the scripts can be
    evaluated: the end-to-end scenarios of the specification and the
    platform failures the scripts can meet. *)
(* ===================================================================== *)

Module Scenarios.
Import Py.

Definition posix_signals (n : Z) : option string :=
  if bool_decide (n = 2) then Some "SIGINT"
  else if bool_decide (n = 6) then Some "SIGABRT"
  else if bool_decide (n = 9) then Some "SIGKILL"
  else if bool_decide (n = 11) then Some "SIGSEGV"
  else if bool_decide (n = 15) then Some "SIGTERM"
  else None.

(** Every write succeeds. *)
Definition writable : string -> string -> gmap string Entry -> option WriteFault :=
  fun _ _ _ => None.

(** Standard output encodes as UTF-8 and takes every text. *)
Definition utf8_stdout : string -> option PlatformError := fun _ => None.

Definition file_not_found (what : string) : PlatformError :=
  mkPlatformError "FileNotFoundError"
    ("[Errno 2] No such file or directory: " +:+ repr_str what).

Definition permission_denied (what : string) : PlatformError :=
  mkPlatformError "PermissionError"
    ("[Errno 13] Permission denied: " +:+ repr_str what).

Definition no_space : PlatformError :=
  mkPlatformError "OSError" "[Errno 28] No space left on device".

(** ** The image builder *)

Module Builder.
Import CreateBootimage.

Definition kernel_file (fl : flavour) : string := str fl (kernel_path fl).
Definition image_file (fl : flavour) : string := str fl (output_path fl).

(** A tree holding the compiled kernel and nothing else. *)
Definition with_kernel (fl : flavour) : gmap string Entry :=
  {[ kernel_file fl := File "ELF" ]}.

(** A tree in which the kernel path names a directory. *)
Definition kernel_is_dir (fl : flavour) : gmap string Entry :=
  {[ kernel_file fl := Dir ]}.

(** A tree holding the kernel and an image left by an earlier build. *)
Definition with_stale_image (fl : flavour) : gmap string Entry :=
  <[ image_file fl := File "OLD IMAGE" ]> (with_kernel fl).

(** Scenario A: the builder exits 0 and leaves the image. *)
Definition build_ok (fl : flavour) : Env :=
  mkEnv fl posix_signals
    (fun _ _ d => Exited 0 ("Created " +:+ image_file fl +:+ nl) EmptyString
                    (<[ image_file fl := File "IMAGE" ]> d))
    writable utf8_stdout.

(** The builder exits 0 without leaving anything. *)
Definition build_silent (fl : flavour) : Env :=
  mkEnv fl posix_signals (fun _ _ d => Exited 0 EmptyString EmptyString d) writable
    utf8_stdout.

(** The builder fails with exit status 101 and a diagnostic. *)
Definition build_fails (fl : flavour) : Env :=
  mkEnv fl posix_signals
    (fun _ _ d => Exited 101 EmptyString ("error: could not compile" +:+ nl) d)
    writable utf8_stdout.

(** [cargo] is not installed: the process cannot be started. *)
Definition no_cargo (fl : flavour) : Env :=
  mkEnv fl posix_signals (fun _ _ d => SpawnRaises (file_not_found "cargo") d) writable
    utf8_stdout.

End Builder.

(** ** The boot capture runner *)

Module Capture.
Import TempQemuCapture.

Definition image_file (fl : flavour) : string := str fl (bin_path fl).
Definition log_file (fl : flavour) : string := str fl (serial_log fl).

(** A tree holding the boot image. *)
Definition with_image (fl : flavour) : gmap string Entry :=
  {[ image_file fl := File "IMAGE" ]}.

(** An emulator that boots the image when it is there, and otherwise
    complains on its standard error and exits 1. *)
Definition qemu (fl : flavour) : list string -> option string -> gmap string Entry -> SpawnOutcome :=
  fun _ _ d =>
    match d !! image_file fl with
    | Some _ => Exited 0 ("BOOT OK" +:+ nl) EmptyString d
    | None =>
        Exited 1 EmptyString
          ("qemu-system-x86_64: Could not open " +:+ repr_str (image_file fl)
             +:+ ": No such file or directory" +:+ nl) d
    end.

(** Scenario C: the guest prints [BOOT OK] and the emulator exits 0. *)
Definition boot_ok (fl : flavour) : Env :=
  mkEnv fl posix_signals (qemu fl) writable utf8_stdout.


(** The emulator is not installed. *)
Definition no_emulator (fl : flavour) : Env :=
  mkEnv fl posix_signals
    (fun _ _ d => SpawnRaises (file_not_found "qemu-system-x86_64") d)
    writable utf8_stdout.

(** The log file cannot be opened for writing. *)
Definition readonly_log (fl : flavour) : Env :=
  mkEnv fl posix_signals (qemu fl)
    (fun p _ _ => Some (OpenFails (permission_denied p)))
    utf8_stdout.

(** The disk fills up after the first four bytes of the log. *)
Definition disk_full (fl : flavour) : Env :=
  mkEnv fl posix_signals (qemu fl)
    (fun _ data _ => Some (WriteFails no_space (String.substring 0 4 data)))
    utf8_stdout.

End Capture.

End Scenarios.

(** More environments, for the paths of the scripts that the scenarios
    above leave out. *)
Module MoreScenarios.
Import Py Scenarios.

(** Standard output redirected on a machine whose code page is cp932: the
    check mark and the ballot cross of the builder's last lines are not in
    it. *)
Definition cannot_encode (codec what : string) : PlatformError :=
  mkPlatformError "UnicodeEncodeError"
    ("'" +:+ codec +:+ "' codec can't encode character '" +:+ what
       +:+ "' in position 0: illegal multibyte sequence").

Definition cp932_stdout (s : string) : option PlatformError :=
  if contains "✓" s then Some (cannot_encode "cp932" "\u2713")
  else if contains "✗" s then Some (cannot_encode "cp932" "\u2717")
  else None.

(** Scenario A on that machine. *)
Definition build_ok_cp932 (fl : flavour) : Env :=
  mkEnv fl posix_signals (spawn (Builder.build_ok fl)) writable cp932_stdout.

(** The builder exits 0 and leaves nothing, on that machine. *)
Definition build_silent_cp932 (fl : flavour) : Env :=
  mkEnv fl posix_signals (spawn (Builder.build_silent fl)) writable cp932_stdout.

(** A checkout in which nothing was built yet: the workspace directory is
    there, and so is its build directory, but no boot image. *)
Definition workspace_without_image (fl : flavour) : gmap string Entry :=
  <[ str fl (parent (TempQemuCapture.bin_path fl)) := Dir ]>
    {[ str fl (TempQemuCapture.workspace fl) := Dir ]}.

(** [Capture.qemu] started the way [Popen] starts it: a working directory
    that is not an existing directory makes the launch fail. *)
Definition qemu_in_cwd (fl : flavour)
  : list string -> option string -> gmap string Entry -> SpawnOutcome :=
  fun c cwd d =>
    match cwd with
    | None => Capture.qemu fl c cwd d
    | Some w =>
        match d !! w with
        | Some Dir => Capture.qemu fl c cwd d
        | _ => SpawnRaises (file_not_found w) d
        end
    end.

Definition boot_in_cwd (fl : flavour) : Env :=
  mkEnv fl posix_signals (qemu_in_cwd fl) writable utf8_stdout.

(** The builder succeeds and warns on its standard error. *)
Definition build_warns (fl : flavour) : Env :=
  mkEnv fl posix_signals
    (fun _ _ d => Exited 0 ("Created " +:+ Builder.image_file fl +:+ nl)
                    ("warning: unused variable" +:+ nl)
                    (<[ Builder.image_file fl := File "IMAGE" ]> d))
    writable utf8_stdout.

(** The builder fails as [Builder.build_fails] does, after printing
    progress on its standard output. *)
Definition build_fails_chatty (fl : flavour) : Env :=
  mkEnv fl posix_signals
    (fun _ _ d => Exited 101 ("Compiling tiny_os" +:+ nl)
                    ("error: could not compile" +:+ nl) d)
    writable utf8_stdout.

End MoreScenarios.

(* ===================================================================== *)
(** * Facts about the runtime model *)
(* ===================================================================== *)

Module PyFacts.
Import Py.

Lemma append_assoc (a b c : string) : (a +:+ b) +:+ c = a +:+ b +:+ c.
Proof.
  induction a as [|x a IH]; [reflexivity|].
  change (String x ((a +:+ b) +:+ c) = String x (a +:+ b +:+ c)).
  now f_equal.
Qed.

(** A text is found in whatever it is a prefix of. *)
Lemma prefix_append (a b : string) : String.prefix a (a +:+ b) = true.
Proof.
  induction a as [|x a IH]; simpl; [now destruct b|].
  destruct (ascii_dec x x) as [_|N]; [exact IH | now destruct N].
Qed.

Lemma contains_prefix (n h : string) : String.prefix n h = true -> contains n h = true.
Proof. intros H. destruct h; cbn [contains]; now rewrite H. Qed.

Lemma contains_append_l (a b : string) : contains a (a +:+ b) = true.
Proof. apply contains_prefix, prefix_append. Qed.

Lemma contains_append_r (n a b : string) :
  contains n b = true -> contains n (a +:+ b) = true.
Proof.
  intros H. induction a as [|x a IH]; [exact H|].
  change (String.prefix n (String x (a +:+ b)) || contains n (a +:+ b) = true).
  rewrite IH. apply orb_true_r.
Qed.

(** [x in (a + x + b)]. *)
Lemma contains_middle (a x b : string) : contains x (a +:+ x +:+ b) = true.
Proof. apply contains_append_r, contains_append_l. Qed.

End PyFacts.

(* ===================================================================== *)
(** * The boot capture runner: what a run does *)
(* ===================================================================== *)

Module TempQemuCaptureSpec.
Import Py PyFacts TempQemuCapture.

Section Run.

Variable env : Env.
Variable d : gmap string Entry.

Local Abbreviation fl := (os_flavour env).
Local Abbreviation ws := (Some (str fl (workspace fl))).
Local Abbreviation log := (str fl (serial_log fl)).
Local Abbreviation running := ("Running: " +:+ join " " (cmd fl) +:+ nl).
Local Abbreviation exited rc := ("QEMU exited with " +:+ str_int rc +:+ nl).

(** The whole run, by cases on what the environment answers. *)
Lemma script_run :
  run_script script env d =
    match spawn env (cmd fl) ws d with
    | SpawnRaises e d' =>
        mkRun (Raise (ExnPlatform e))
              (mkState d' [EvPrint running; EvSpawn (cmd fl) ws])
    | Exited rc out err d' =>
        let text := log_text out err in
        let tr := [EvPrint running; EvSpawn (cmd fl) ws;
                   EvPrint (exited rc); EvWrite log text] in
        match write_fault env log text d' with
        | None => mkRun (Ok tt) (mkState (<[log := File text]> d') tr)
        | Some (OpenFails e) => mkRun (Raise (ExnPlatform e)) (mkState d' tr)
        | Some (WriteFails e partial) =>
            mkRun (Raise (ExnPlatform e)) (mkState (<[log := File partial]> d') tr)
        end
    end.
Proof.
  unfold run_script, script, subprocess_run, write_text, print, emit, ask,
    get_fs, set_fs, raise.
  unfold mbind, M_bind, mret, M_ret.
  cbn [print_writes arg_refused arg_text fs trace fmap option_fmap option_map
       returncode stdout stderr app].
  destruct (spawn env (cmd fl) ws d) as [rc out err d'|e d'];
    cbn [fs trace returncode stdout stderr app andb]; [|reflexivity].
  destruct (write_fault env log (log_text out err) d') as [[e|e p]|]; reflexivity.
Qed.

Lemma log_text_flat (out err : string) :
  log_text out err = out +:+ nl +:+ "STDERR:" +:+ nl +:+ err.
Proof. unfold log_text. now rewrite !append_assoc. Qed.

(** The run of an emulator that was started and came back. *)
Lemma script_run_exited rc out err d' :
  spawn env (cmd fl) ws d = Exited rc out err d' ->
  trace (final (run_script script env d))
    = [EvPrint running; EvSpawn (cmd fl) ws; EvPrint (exited rc);
       EvWrite log (log_text out err)].
Proof.
  intros Hs. rewrite script_run, Hs. cbn zeta.
  now destruct (write_fault env log (log_text out err) d') as [[e|e p]|].
Qed.

(** C1. Whenever the emulator was started and its output captured, the
    script writes, to the capture log and nowhere else, exactly the
    captured standard output, then the text [\nSTDERR:\n], then the
    captured standard error, whatever the emulator's exit status [rc] is;
    and when the write goes through, that is the content of the log. *)
Theorem capture_log_format rc out err d' :
  spawn env (cmd fl) ws d = Exited rc out err d' ->
  let r := run_script script env d in
  writes r = [(log, out +:+ nl +:+ "STDERR:" +:+ nl +:+ err)] /\
  (write_fault env log (log_text out err) d' = None ->
   fs (final r) !! log = Some (File (out +:+ nl +:+ "STDERR:" +:+ nl +:+ err))).
Proof.
  intros Hs r. split.
  - unfold writes, r. rewrite (script_run_exited _ _ _ _ Hs).
    cbn [omap list_omap]. now rewrite log_text_flat.
  - intros Hw. unfold r. rewrite script_run, Hs. cbn zeta. rewrite Hw.
    cbn [final fs]. rewrite lookup_insert_eq. now rewrite log_text_flat.
Qed.


(** C2, as the code has it. The script never looks at the boot image and
    has no report of its own for a missing one: with the image missing it
    still asks for the emulator, exactly once; all it prints is the command
    line and, if the emulator came back, the emulator's exit status; it
    never leaves through [sys.exit]; and the run ends with exit status 0
    precisely when the emulator came back and the log was written. *)
Theorem missing_image_is_not_checked :
  d !! str fl (bin_path fl) = None ->
  let r := run_script script env d in
  spawn_calls r = [(cmd fl, ws)] /\
  printed r = match spawn env (cmd fl) ws d with
              | Exited rc _ _ _ => [running; exited rc]
              | SpawnRaises _ _ => [running]
              end /\
  (forall n, result r ≠ Raise (SystemExit n)) /\
  (exit_status r = 0 <->
   exists rc out err d',
     spawn env (cmd fl) ws d = Exited rc out err d' /\
     write_fault env log (log_text out err) d' = None).
Proof.
  intros _ r. unfold r, spawn_calls, printed, exit_status. rewrite script_run.
  destruct (spawn env (cmd fl) ws d) as [rc out err d'|e d'] eqn:Hs; cbn zeta.
  - destruct (write_fault env log (log_text out err) d') as [[e|e p]|] eqn:Hw;
      (split; [reflexivity|]); (split; [reflexivity|]);
      (split; [intros n; discriminate|]); cbn [result]; split; try discriminate.
    + intros (rc' & out' & err' & d'' & [= -> -> -> ->] & Hw'). congruence.
    + intros (rc' & out' & err' & d'' & [= -> -> -> ->] & Hw'). congruence.
    + intros _. now exists rc, out, err, d'.
    + reflexivity.
  - split; [reflexivity|]. split; [reflexivity|].
    split; [intros n; discriminate|]. cbn [result]. split; [discriminate|].
    intros (rc' & out' & err' & d'' & [=] & _).
Qed.

(** C6, as the code has it. When the log cannot be written, the exception
    of the failed write ends the run uncaught, with exit status 1; what the
    script itself has printed are its two status lines, which carry the
    command line and the exit status but none of the captured output. *)
Theorem log_write_failure_is_uncaught rc out err d' wf :
  spawn env (cmd fl) ws d = Exited rc out err d' ->
  write_fault env log (log_text out err) d' = Some wf ->
  let r := run_script script env d in
  result r = Raise (ExnPlatform (fault_error wf)) /\
  exit_status r = 1 /\
  printed r = [running; exited rc].
Proof.
  intros Hs Hw r. unfold r, exit_status, printed.
  rewrite script_run, Hs. cbn zeta. rewrite Hw.
  now destruct wf.
Qed.


End Run.

Import Scenarios Scenarios.Capture MoreScenarios.

(** Scenario C of the specification, by [capture_log_format]: the emulator
    exits 0 having printed [BOOT OK] and a newline, with nothing on its
    standard error; the log then reads [BOOT OK\n\nSTDERR:\n]. *)
Lemma capture_log_format_scenario_C :
  writes (run_script script (boot_ok Windows) (with_image Windows))
    = [(log_file Windows, "BOOT OK" +:+ nl +:+ nl +:+ "STDERR:" +:+ nl)] /\
  fs (final (run_script script (boot_ok Windows) (with_image Windows)))
    !! log_file Windows
    = Some (File ("BOOT OK" +:+ nl +:+ nl +:+ "STDERR:" +:+ nl)).
Proof.
  assert (Hs : spawn (boot_ok Windows) (cmd Windows)
                 (Some (str Windows (workspace Windows))) (with_image Windows)
               = Exited 0 ("BOOT OK" +:+ nl) EmptyString (with_image Windows))
    by (vm_compute; reflexivity).
  destruct (capture_log_format _ _ _ _ _ _ Hs) as [Hw Hf].
  split; [exact Hw | exact (Hf eq_refl)].
Defined.


(** C2 fails on the code: in a checkout whose workspace and build
    directory exist but hold no boot image, the emulator is started all
    the same (in the workspace, which is there), the emulator's own
    complaint is captured, and the run ends with exit status 0. *)
Lemma missing_image_still_boots :
  ¬ (workspace_without_image Windows !! image_file Windows = None ->
     exit_status (run_script script (boot_in_cwd Windows)
                    (workspace_without_image Windows)) = 1 /\
     spawn_calls (run_script script (boot_in_cwd Windows)
                    (workspace_without_image Windows)) = []).
Proof.
  intros H.
  assert (Hm : workspace_without_image Windows !! image_file Windows = None)
    by (vm_compute; reflexivity).
  destruct (H Hm) as [H1 _]. vm_compute in H1. discriminate H1.
Qed.

(** The same checkout, by [missing_image_is_not_checked]: one launch, the
    two status lines, exit status 0. *)
Lemma missing_image_is_not_checked_fresh_checkout :
  workspace_without_image Windows !! str Windows (workspace Windows) = Some Dir /\
  spawn_calls (run_script script (boot_in_cwd Windows)
                 (workspace_without_image Windows))
    = [(cmd Windows, Some (str Windows (workspace Windows)))] /\
  printed (run_script script (boot_in_cwd Windows)
             (workspace_without_image Windows))
    = ["Running: " +:+ join " " (cmd Windows) +:+ nl;
       "QEMU exited with 1" +:+ nl] /\
  exit_status (run_script script (boot_in_cwd Windows)
                 (workspace_without_image Windows)) = 0.
Proof.
  destruct (missing_image_is_not_checked (boot_in_cwd Windows)
              (workspace_without_image Windows))
    as (Hc & Hp & _ & Hx).
  - vm_compute. reflexivity.
  - split; [vm_compute; reflexivity|]. split; [exact Hc|].
    split; [vm_compute in Hp; vm_compute; exact Hp|]. apply Hx.
    eexists _, _, _, _. split; vm_compute; reflexivity.
Defined.

(** C6 fails on the code: the emulator printed [BOOT OK], the log cannot be
    opened, and the run ends in the [PermissionError] of the write; the
    captured text is neither in what the script printed nor in the
    exception. *)
Lemma unwritable_log_loses_capture :
  spawn (readonly_log Windows) (cmd Windows)
    (Some (str Windows (workspace Windows))) (with_image Windows)
    = Exited 0 ("BOOT OK" +:+ nl) EmptyString (with_image Windows) /\
  result (run_script script (readonly_log Windows) (with_image Windows))
    = Raise (ExnPlatform (permission_denied (log_file Windows))) /\
  contains "BOOT OK"
    (console (run_script script (readonly_log Windows) (with_image Windows)))
    = false /\
  contains "BOOT OK"
    (exc_class (permission_denied (log_file Windows))
       +:+ exc_text (permission_denied (log_file Windows)))
    = false.
Proof. repeat split; vm_compute; reflexivity. Qed.

(** The disk fills up while the log is written: the run ends in that
    [OSError] with status 1, having printed the two status lines. *)
Lemma log_write_failure_is_uncaught_disk_full :
  result (run_script script (disk_full Posix) (with_image Posix))
    = Raise (ExnPlatform no_space) /\
  exit_status (run_script script (disk_full Posix) (with_image Posix)) = 1 /\
  printed (run_script script (disk_full Posix) (with_image Posix))
    = ["Running: " +:+ join " " (cmd Posix) +:+ nl; "QEMU exited with 0" +:+ nl].
Proof.
  assert (Hs : spawn (disk_full Posix) (cmd Posix)
                 (Some (str Posix (workspace Posix))) (with_image Posix)
               = Exited 0 ("BOOT OK" +:+ nl) EmptyString (with_image Posix))
    by (vm_compute; reflexivity).
  exact (log_write_failure_is_uncaught (disk_full Posix) (with_image Posix)
           0 ("BOOT OK" +:+ nl) EmptyString (with_image Posix)
           (WriteFails no_space "BOOT") Hs eq_refl).
Defined.



End TempQemuCaptureSpec.

(* ===================================================================== *)
(** * The image builder: what a run does *)
(* ===================================================================== *)

Module CreateBootimageSpec.
Import Py PyFacts CreateBootimage.

Section Run.

Variable env : Env.
Variable d : gmap string Entry.

Local Abbreviation fl := (os_flavour env).
Local Abbreviation kernel := (str fl (kernel_path fl)).
Local Abbreviation image := (str fl (output_path fl)).
Local Abbreviation not_found := ("Error: Kernel not found at " +:+ kernel +:+ nl).
Local Abbreviation creating := ("Creating UEFI boot image from " +:+ kernel +:+ nl).
Local Abbreviation tool_failed rc out err :=
  ("Error creating boot image: "
     +:+ str_CalledProcessError env (mkCalledProcessError rc (cmd fl) out err)
     +:+ nl).
Local Abbreviation warnings err :=
  (if truthy err then [EvPrint ("Warnings/Info: " +:+ err +:+ nl)] else []).
Local Abbreviation created_text := ("✓ Boot image created: " +:+ image).
Local Abbreviation not_created_text := ("✗ Boot image was not created").
Local Abbreviation created := ("✓ Boot image created: " +:+ image +:+ nl).
Local Abbreviation not_created := ("✗ Boot image was not created" +:+ nl).

(** The whole run, by cases on the filesystem and on what the environment
    answers.  The two last lines hold a character beyond ASCII each, so
    that standard output may refuse them. *)
Lemma main_run :
  run_script script env d =
    if bool_decide (is_Some (d !! kernel)) then
      match spawn env (cmd fl) None d with
      | SpawnRaises e d' =>
          mkRun (Raise (ExnPlatform e))
                (mkState d' [EvPrint creating; EvSpawn (cmd fl) None])
      | Exited rc out err d' =>
          if bool_decide (rc ≠ 0) then
            mkRun (Raise (SystemExit 1))
                  (mkState d' [EvPrint creating; EvSpawn (cmd fl) None;
                               EvPrint (tool_failed rc out err);
                               EvPrint (err +:+ nl)])
          else
            let pre := [EvPrint creating; EvSpawn (cmd fl) None;
                        EvPrint (out +:+ nl)] ++ warnings err in
            if bool_decide (is_Some (d' !! image)) then
              match stdout_refuses env created_text with
              | None => mkRun (Ok tt) (mkState d' (pre ++ [EvPrint created]))
              | Some e => mkRun (Raise (ExnPlatform e)) (mkState d' pre)
              end
            else
              match stdout_refuses env not_created_text with
              | None => mkRun (Raise (SystemExit 1))
                              (mkState d' (pre ++ [EvPrint not_created]))
              | Some e => mkRun (Raise (ExnPlatform e)) (mkState d' pre)
              end
      end
    else mkRun (Raise (SystemExit 1)) (mkState d [EvPrint not_found]).
Proof.
  unfold run_script, script, main, try_except, subprocess_run, exists_, print,
    sys_exit, pass, emit, ask, get_fs, set_fs, raise.
  unfold mbind, M_bind, mret, M_ret.
  cbn [print_writes arg_refused arg_text fs trace fmap option_fmap option_map app].
  destruct (bool_decide (is_Some (d !! kernel))); cbn [negb fs trace app];
    [|reflexivity].
  destruct (spawn env (cmd fl) None d) as [rc out err d'|e d'];
    cbn [fs trace app andb as_CalledProcessError]; [|reflexivity].
  destruct (bool_decide (rc ≠ 0));
    cbn [fs trace app as_CalledProcessError cpe_stderr stdout stderr];
    [reflexivity|].
  destruct (truthy err); cbn [fs trace app];
    destruct (bool_decide (is_Some (d' !! image)));
    [ destruct (stdout_refuses env created_text)
    | destruct (stdout_refuses env not_created_text)
    | destruct (stdout_refuses env created_text)
    | destruct (stdout_refuses env not_created_text) ];
    reflexivity.
Qed.

Local Abbreviation warning_lines err :=
  (if truthy err then ["Warnings/Info: " +:+ err +:+ nl] else []).

Lemma bool_decide_is_Some_None (x : option Entry) :
  x = None -> bool_decide (is_Some x) = false.
Proof. intros ->. apply bool_decide_eq_false. now intros [? ?]. Qed.

(** C3, as the code has it. When nothing exists at the kernel path, the run
    stops at once: it prints the one line naming that path, asks for no
    child process, leaves the filesystem alone and exits with status 1. *)
Theorem missing_kernel_fails_early :
  d !! kernel = None ->
  let r := run_script script env d in
  result r = Raise (SystemExit 1) /\
  exit_status r = 1 /\
  printed r = [not_found] /\
  contains kernel (console r) = true /\
  spawn_calls r = [] /\
  fs (final r) = d.
Proof.
  intros Hk r. unfold r, exit_status, printed, console, spawn_calls.
  rewrite main_run, (bool_decide_is_Some_None _ Hk).
  cbn [result final fs trace omap list_omap String.concat].
  repeat split. apply contains_middle.
Qed.

(** The builder ran and exited with status 0, yet nothing exists at the
    image path afterwards. The run relays the builder's output and never
    announces success; its exit status is 1 either way. Where standard
    output takes the ballot cross, the line saying that the image was not
    created is printed and [sys.exit(1)] follows; where it does not, the
    [UnicodeEncodeError] of that [print] ends the run and the line is
    missing. *)
Lemma silent_build_run out err d' :
  is_Some (d !! kernel) ->
  spawn env (cmd fl) None d = Exited 0 out err d' ->
  d' !! image = None ->
  let r := run_script script env d in
  exit_status r = 1 /\
  match stdout_refuses env not_created_text with
  | None =>
      result r = Raise (SystemExit 1) /\
      printed r = [creating; out +:+ nl] ++ warning_lines err ++ [not_created]
  | Some e =>
      result r = Raise (ExnPlatform e) /\
      printed r = [creating; out +:+ nl] ++ warning_lines err
  end.
Proof.
  intros Hk Hs Hi r. unfold r, exit_status, printed.
  rewrite main_run, (bool_decide_eq_true_2 _ Hk), Hs.
  rewrite (bool_decide_eq_false_2 (0 ≠ 0)) by (intros N; now apply N).
  cbn zeta. rewrite (bool_decide_is_Some_None _ Hi).
  destruct (stdout_refuses env not_created_text);
    cbn [result final trace]; now destruct (truthy err).
Qed.

(** C5, as the code has it. In a run that reaches the builder: a non-zero
    exit status is caught, reported by a line carrying the text of the
    exception and a line carrying exactly the captured standard error, and
    turned into exit status 1. A builder that cannot be started is not
    caught: that exception ends the run (exit status 1) and the script
    prints no report of its own. *)
Theorem tool_failure_report :
  is_Some (d !! kernel) ->
  let r := run_script script env d in
  match spawn env (cmd fl) None d with
  | Exited rc out err d' =>
      rc ≠ 0 ->
      result r = Raise (SystemExit 1) /\
      exit_status r = 1 /\
      printed r = [creating; tool_failed rc out err; err +:+ nl]
  | SpawnRaises e d' =>
      result r = Raise (ExnPlatform e) /\
      exit_status r = 1 /\
      printed r = [creating]
  end.
Proof.
  intros Hk r. unfold r, exit_status, printed.
  rewrite main_run, (bool_decide_eq_true_2 _ Hk).
  destruct (spawn env (cmd fl) None d) as [rc out err d'|e d']; [|now repeat split].
  intros Hrc. rewrite (bool_decide_eq_true_2 _ Hrc). now repeat split.
Qed.

(** The run ends with exit status 0 exactly when the kernel existed, the
    builder was run and exited with status 0, the image path exists in the
    filesystem the builder left behind, and standard output took the line
    that announces the image. A successful run ends by printing the image
    path, and it has run the builder: an image that is merely there is
    never enough. *)
Lemma exit_status_zero_iff :
  let r := run_script script env d in
  (exit_status r = 0 <->
   is_Some (d !! kernel) /\
   exists out err d',
     spawn env (cmd fl) None d = Exited 0 out err d' /\
     is_Some (d' !! image) /\
     stdout_refuses env created_text = None) /\
  (exit_status r = 0 ->
   last (printed r) = Some created /\ spawn_calls r = [(cmd fl, None)]).
Proof.
  intros r. unfold r, exit_status, printed, spawn_calls. rewrite main_run.
  destruct (bool_decide_reflect (is_Some (d !! kernel))) as [Hk|Hk].
  2:{ cbn [result]. split; [split|]; try discriminate. now intros [? _]. }
  destruct (spawn env (cmd fl) None d) as [rc out err d'|e d'] eqn:Hs.
  2:{ cbn [result]. split; [split|]; try discriminate.
      intros (_ & ? & ? & ? & [=] & _). }
  destruct (bool_decide_reflect (rc ≠ 0)) as [Hrc|Hrc].
  { cbn [result]. split; [split|]; try discriminate.
    intros (_ & ? & ? & ? & [= -> _ _ _] & _). exfalso. now apply Hrc. }
  assert (rc = 0) as -> by (destruct (decide (rc = 0)); [done | now destruct Hrc]).
  cbn zeta.
  destruct (bool_decide_reflect (is_Some (d' !! image))) as [Hi|Hi].
  - destruct (stdout_refuses env created_text) as [e|] eqn:Ho; cbn [result].
    + split; [split|]; try discriminate.
      intros (_ & ? & ? & ? & _ & _ & [=]).
    + split; [split|].
      * intros _. split; [exact Hk|]. now exists out, err, d'.
      * reflexivity.
      * intros _. cbn [final trace]. now destruct (truthy err).
  - destruct (stdout_refuses env not_created_text); cbn [result];
      (split; [split|]; try discriminate;
       intros (_ & ? & ? & ? & [= _ _ <-] & Hi' & _); exfalso; now apply Hi).
Qed.

End Run.

Import Scenarios Scenarios.Builder MoreScenarios.

(** C3 fails on the code where it says "as a regular file": the script
    asks only whether the path exists. With a directory at the kernel path
    there is no regular file there, and the builder is invoked. *)
Lemma kernel_directory_reaches_builder :
  ¬ ((forall c, kernel_is_dir Posix !! kernel_file Posix ≠ Some (File c)) ->
     exit_status (run_script script (build_fails Posix) (kernel_is_dir Posix)) = 1 /\
     spawn_calls (run_script script (build_fails Posix) (kernel_is_dir Posix)) = []).
Proof.
  intros H.
  assert (Hd : forall c, kernel_is_dir Posix !! kernel_file Posix ≠ Some (File c)).
  { intros c. unfold kernel_is_dir. rewrite lookup_singleton_eq. discriminate. }
  destruct (H Hd) as [_ Hc]. vm_compute in Hc. discriminate Hc.
Qed.

(** Scenario B of the specification, by [missing_kernel_fails_early]. *)
Lemma missing_kernel_fails_early_scenario_B :
  exit_status (run_script script (build_ok Posix) ∅) = 1 /\
  printed (run_script script (build_ok Posix) ∅)
    = ["Error: Kernel not found at target/x86_64-blog_os/debug/tiny_os" +:+ nl] /\
  spawn_calls (run_script script (build_ok Posix) ∅) = [].
Proof.
  destruct (missing_kernel_fails_early (build_ok Posix) ∅ (lookup_empty _))
    as (_ & Hx & Hp & _ & Hc & _).
  split; [exact Hx|]. split; [exact Hp | exact Hc].
Defined.

(** A silent build where standard output takes every character. *)
Lemma silent_build_run_utf8 :
  exit_status (run_script script (build_silent Posix) (with_kernel Posix)) = 1 /\
  printed (run_script script (build_silent Posix) (with_kernel Posix))
    = ["Creating UEFI boot image from target/x86_64-blog_os/debug/tiny_os" +:+ nl;
       nl;
       "✗ Boot image was not created" +:+ nl].
Proof.
  destruct (silent_build_run (build_silent Posix) (with_kernel Posix)
              EmptyString EmptyString (with_kernel Posix))
    as (Hx & H).
  - vm_compute. now eexists.
  - vm_compute. reflexivity.
  - vm_compute. reflexivity.
  - split; [exact Hx|]. vm_compute in H. vm_compute. exact (proj2 H).
Defined.

(** C4. The code tries to report the silent failure and loses the report
    where standard output is encoded in a legacy code page: the builder
    exited with status 0 and left no image, the [print] of the line with
    the ballot cross raises [UnicodeEncodeError], and the run ends in that
    exception with exit status 1, having printed nothing about the missing
    image. *)
Theorem silent_build_report_lost_on_cp932 :
  is_Some (with_kernel Windows !! kernel_file Windows) /\
  spawn (build_silent_cp932 Windows) (cmd Windows) None (with_kernel Windows)
    = Exited 0 EmptyString EmptyString (with_kernel Windows) /\
  with_kernel Windows !! image_file Windows = None /\
  result (run_script script (build_silent_cp932 Windows) (with_kernel Windows))
    = Raise (ExnPlatform (cannot_encode "cp932" "\u2717")) /\
  exit_status (run_script script (build_silent_cp932 Windows) (with_kernel Windows))
    = 1 /\
  printed (run_script script (build_silent_cp932 Windows) (with_kernel Windows))
    = ["Creating UEFI boot image from " +:+ kernel_file Windows +:+ nl; nl].
Proof.
  split; [vm_compute; now eexists|].
  repeat split; vm_compute; reflexivity.
Qed.

(** C5 fails on the code where the builder cannot be launched: [cargo] is
    missing, the [FileNotFoundError] is not caught, and the script prints
    nothing after its first status line; there is no captured standard
    error and no report carrying one. *)
Lemma launch_failure_is_not_reported :
  spawn (no_cargo Posix) (cmd Posix) None (with_kernel Posix)
    = SpawnRaises (file_not_found "cargo") (with_kernel Posix) /\
  result (run_script script (no_cargo Posix) (with_kernel Posix))
    = Raise (ExnPlatform (file_not_found "cargo")) /\
  printed (run_script script (no_cargo Posix) (with_kernel Posix))
    = ["Creating UEFI boot image from target/x86_64-blog_os/debug/tiny_os" +:+ nl].
Proof. repeat split; vm_compute; reflexivity. Qed.

Lemma tool_failure_report_exit_101 :
  exit_status (run_script script (build_fails Posix) (with_kernel Posix)) = 1 /\
  printed (run_script script (build_fails Posix) (with_kernel Posix))
    = ["Creating UEFI boot image from target/x86_64-blog_os/debug/tiny_os" +:+ nl;
       "Error creating boot image: Command '['cargo', 'builder', "
         +:+ "'--kernel-binary', 'target/x86_64-blog_os/debug/tiny_os', "
         +:+ "'--out-dir', 'target/x86_64-blog_os/debug']' "
         +:+ "returned non-zero exit status 101." +:+ nl;
       "error: could not compile" +:+ nl +:+ nl].
Proof.
  assert (Hk : is_Some (with_kernel Posix
                          !! str (os_flavour (build_fails Posix))
                               (kernel_path (os_flavour (build_fails Posix)))))
    by (vm_compute; now eexists).
  pose proof (tool_failure_report (build_fails Posix) (with_kernel Posix) Hk) as H.
  assert (Hrc : 101 ≠ 0) by discriminate.
  destruct (H Hrc) as (_ & Hx & Hp).
  split; [exact Hx | exact Hp].
Defined.

(** Scenario A of the specification where standard output takes every
    character, and a stale image next to a failing build. *)
Lemma exit_status_zero_iff_scenario_A :
  exit_status (run_script script (build_ok Posix) (with_kernel Posix)) = 0 /\
  last (printed (run_script script (build_ok Posix) (with_kernel Posix)))
    = Some ("✓ Boot image created: target/x86_64-blog_os/debug/tiny_os.efi.img"
              +:+ nl) /\
  exit_status (run_script script (build_fails Posix) (with_stale_image Posix)) ≠ 0.
Proof.
  destruct (exit_status_zero_iff (build_ok Posix) (with_kernel Posix))
    as [Hiff Hlast].
  assert (Hx : exit_status (run_script script (build_ok Posix) (with_kernel Posix)) = 0).
  { apply Hiff. split.
    - vm_compute. now eexists.
    - eexists _, _, _. split; [reflexivity|]. split; [|reflexivity].
      vm_compute. now eexists. }
  split; [exact Hx|]. split; [exact (proj1 (Hlast Hx))|].
  intros H0.
  apply (proj1 (exit_status_zero_iff (build_fails Posix) (with_stale_image Posix)))
    in H0.
  destruct H0 as (_ & ? & ? & ? & [=] & _).
Defined.

(** C8. The code tries to report success and fails where standard output
    is encoded in a legacy code page: the kernel exists, the builder exits
    with status 0 and the image exists afterwards, yet the [print] of the
    line with the check mark raises [UnicodeEncodeError]; the run ends in
    that exception with exit status 1 and without the line that names the
    image. *)
Theorem successful_build_fails_on_cp932 :
  is_Some (with_kernel Windows !! kernel_file Windows) /\
  spawn (build_ok_cp932 Windows) (cmd Windows) None (with_kernel Windows)
    = Exited 0 ("Created " +:+ image_file Windows +:+ nl) EmptyString
        (<[ image_file Windows := File "IMAGE" ]> (with_kernel Windows)) /\
  is_Some (<[ image_file Windows := File "IMAGE" ]> (with_kernel Windows)
             !! image_file Windows) /\
  result (run_script script (build_ok_cp932 Windows) (with_kernel Windows))
    = Raise (ExnPlatform (cannot_encode "cp932" "\u2713")) /\
  exit_status (run_script script (build_ok_cp932 Windows) (with_kernel Windows))
    = 1 /\
  printed (run_script script (build_ok_cp932 Windows) (with_kernel Windows))
    = ["Creating UEFI boot image from " +:+ kernel_file Windows +:+ nl;
       "Created " +:+ image_file Windows +:+ nl +:+ nl].
Proof.
  split; [vm_compute; now eexists|].
  split; [vm_compute; reflexivity|].
  split; [vm_compute; now eexists|].
  repeat split; vm_compute; reflexivity.
Qed.

End CreateBootimageSpec.

(* ===================================================================== *)
(** * The two scripts together *)
(* ===================================================================== *)

Module Integration.
Import Py.

(** C7, as the code has it. Seen from the workspace, the image the capture
    script boots lies in the directory the builder is told to fill, which
    is also the directory of the image the builder looks for afterwards;
    but the two scripts name different files in it. *)
Theorem image_paths_share_directory_only (fl : flavour) :
  parent (TempQemuCapture.bin_path fl)
    = truediv fl (TempQemuCapture.workspace fl)
        (str fl (parent (CreateBootimage.output_path fl))) /\
  name (TempQemuCapture.bin_path fl) = "bootimage-tiny_os.bin" /\
  name (CreateBootimage.output_path fl) = "tiny_os.efi.img" /\
  TempQemuCapture.bin_path fl
    ≠ truediv fl (TempQemuCapture.workspace fl)
        (str fl (CreateBootimage.output_path fl)).
Proof. destruct fl; repeat split; vm_compute; congruence. Qed.

(** C7 fails on the code: the path booted is not the path built and
    verified, whether the latter is taken as written or resolved against
    the workspace, on either platform. *)
Lemma booted_image_is_not_built_image :
  str Windows (TempQemuCapture.bin_path Windows)
    ≠ str Windows (CreateBootimage.output_path Windows) /\
  str Windows (TempQemuCapture.bin_path Windows)
    ≠ str Windows (truediv Windows (TempQemuCapture.workspace Windows)
                     (str Windows (CreateBootimage.output_path Windows))) /\
  str Posix (TempQemuCapture.bin_path Posix)
    ≠ str Posix (CreateBootimage.output_path Posix) /\
  str Posix (TempQemuCapture.bin_path Posix)
    ≠ str Posix (truediv Posix (TempQemuCapture.workspace Posix)
                   (str Posix (CreateBootimage.output_path Posix))).
Proof. repeat split; vm_compute; discriminate. Qed.

End Integration.

(* ===================================================================== *)
(** * More on the boot capture runner *)
(* ===================================================================== *)

Module TempQemuCaptureMore.
Import Py PyFacts TempQemuCapture.

Lemma length_append (a b : string) :
  String.length (a +:+ b) = (String.length a + String.length b)%nat.
Proof.
  induction a as [|x a IH]; [reflexivity|].
  change (S (String.length (a +:+ b)) = S (String.length a + String.length b)).
  now rewrite IH.
Qed.

(** Cancelling a common ending. *)
Lemma append_inj_r (s a a' : string) : a +:+ s = a' +:+ s -> a = a'.
Proof.
  revert a'. induction a as [|x a IH]; intros [|y a'] H.
  - reflexivity.
  - apply (f_equal String.length) in H.
    rewrite (length_append (String y a') s) in H.
    change (String.length s = (S (String.length a') + String.length s)%nat) in H.
    lia.
  - apply (f_equal String.length) in H.
    rewrite (length_append (String x a) s) in H.
    change ((S (String.length a) + String.length s)%nat = String.length s) in H.
    lia.
  - change (String x (a +:+ s) = String y (a' +:+ s)) in H.
    injection H as -> H. f_equal. now apply IH.
Qed.

Lemma append_inj_l (s a a' : string) : s +:+ a = s +:+ a' -> a = a'.
Proof.
  induction s as [|x s IH]; intros H; [exact H|].
  change (String x (s +:+ a) = String x (s +:+ a')) in H.
  injection H as H. now apply IH.
Qed.

(** The log and the boot image are different files on either platform. *)
Lemma log_is_not_image (fl : flavour) :
  str fl (serial_log fl) ≠ str fl (bin_path fl).
Proof. destruct fl; vm_compute; discriminate. Qed.

Section Run.

Variable env : Env.
Variable d : gmap string Entry.

Local Abbreviation fl := (os_flavour env).
Local Abbreviation ws := (Some (str fl (workspace fl))).
Local Abbreviation log := (str fl (serial_log fl)).
Local Abbreviation image := (str fl (bin_path fl)).
Local Abbreviation running := ("Running: " +:+ join " " (cmd fl) +:+ nl).
Local Abbreviation exited rc := ("QEMU exited with " +:+ str_int rc +:+ nl).

(** X1. Whatever the environment, a run starts by printing the command
    line and then asks once, and only once, for exactly that command, with
    the workspace as its working directory. *)
Theorem runner_announces_then_launches :
  let r := run_script script env d in
  spawn_calls r = [(cmd fl, ws)] /\
  exists rest,
    trace (final r) = EvPrint running :: EvSpawn (cmd fl) ws :: rest.
Proof.
  intros r. unfold r, spawn_calls. rewrite TempQemuCaptureSpec.script_run.
  destruct (spawn env (cmd fl) ws d) as [rc out err d'|e d']; cbn zeta.
  - destruct (write_fault env log (log_text out err) d') as [[e|e p]|];
      (split; [reflexivity | eexists; reflexivity]).
  - split; [reflexivity | eexists; reflexivity].
Qed.


(** X3. When the emulator cannot be started, the run stops there: the
    exception of the launch ends it with exit status 1, the command line is
    all that was printed (no exit-status line), and nothing is written. *)
Theorem launch_failure_aborts e d' :
  spawn env (cmd fl) ws d = SpawnRaises e d' ->
  let r := run_script script env d in
  result r = Raise (ExnPlatform e) /\
  exit_status r = 1 /\
  printed r = [running] /\
  writes r = [] /\
  fs (final r) = d'.
Proof.
  intros Hs r. unfold r, exit_status, printed, writes.
  rewrite TempQemuCaptureSpec.script_run, Hs. now repeat split.
Qed.

(** X4. The script never touches the image it boots: after any run the
    image path holds what the emulator left there, whether or not the log
    was written. *)
Theorem runner_keeps_boot_image :
  fs (final (run_script script env d)) !! image
    = match spawn env (cmd fl) ws d with
      | Exited _ _ _ d' => d' !! image
      | SpawnRaises _ d' => d' !! image
      end.
Proof.
  rewrite TempQemuCaptureSpec.script_run.
  destruct (spawn env (cmd fl) ws d) as [rc out err d'|e d']; cbn zeta;
    [|reflexivity].
  destruct (write_fault env log (log_text out err) d') as [[e|e p]|];
    cbn [final fs]; try reflexivity;
    apply lookup_insert_ne, log_is_not_image.
Qed.

(** X5. Running the script again overwrites the log: after two runs in a
    row, each with the emulator coming back and the write succeeding, the
    log holds the text of the second run and nothing of the first. *)
Theorem rerun_overwrites_log rc1 out1 err1 d1 rc2 out2 err2 d2 :
  spawn env (cmd fl) ws d = Exited rc1 out1 err1 d1 ->
  write_fault env log (log_text out1 err1) d1 = None ->
  let first := run_script script env d in
  spawn env (cmd fl) ws (fs (final first)) = Exited rc2 out2 err2 d2 ->
  write_fault env log (log_text out2 err2) d2 = None ->
  let second := run_script script env (fs (final first)) in
  fs (final first) !! log = Some (File (log_text out1 err1)) /\
  fs (final second) !! log = Some (File (log_text out2 err2)) /\
  exit_status second = 0.
Proof.
  intros Hs1 Hw1 first Hs2 Hw2 second. split; [|split].
  - unfold first. rewrite TempQemuCaptureSpec.script_run, Hs1. cbn zeta.
    rewrite Hw1. apply lookup_insert_eq.
  - unfold second. rewrite TempQemuCaptureSpec.script_run, Hs2. cbn zeta.
    rewrite Hw2. apply lookup_insert_eq.
  - unfold second, exit_status.
    rewrite TempQemuCaptureSpec.script_run, Hs2. cbn zeta. now rewrite Hw2.
Qed.

End Run.

(** X6. The log text determines either captured stream once the other is
    known, but not the pair: the separator is ordinary text that the
    streams themselves may hold, so two different captures can give the
    same log. *)
Theorem log_text_not_uniquely_splittable :
  (forall out err err', log_text out err = log_text out err' -> err = err') /\
  (forall out out' err, log_text out err = log_text out' err -> out = out') /\
  ¬ (forall out err out' err',
       log_text out err = log_text out' err' -> out = out' /\ err = err').
Proof.
  split; [|split].
  - intros out err err' H. unfold log_text in H. now apply append_inj_l in H.
  - intros out out' err H. unfold log_text in H.
    apply append_inj_r in H. now apply append_inj_r in H.
  - intros H.
    destruct (H ("x" +:+ nl +:+ "STDERR:") EmptyString "x" ("STDERR:" +:+ nl)
                eq_refl) as [Ho _].
    discriminate Ho.
Qed.

Import Scenarios Scenarios.Capture.

(** No emulator on the machine: one printed line, no log. *)
Lemma launch_failure_aborts_no_emulator :
  exit_status (run_script script (no_emulator Windows) (with_image Windows)) = 1 /\
  printed (run_script script (no_emulator Windows) (with_image Windows))
    = ["Running: " +:+ join " " (cmd Windows) +:+ nl] /\
  fs (final (run_script script (no_emulator Windows) (with_image Windows)))
    !! log_file Windows
    = None.
Proof.
  destruct (launch_failure_aborts (no_emulator Windows) (with_image Windows)
              (file_not_found "qemu-system-x86_64") (with_image Windows))
    as (_ & Hx & Hp & _ & Hf).
  - vm_compute. reflexivity.
  - split; [exact Hx|]. split; [exact Hp|]. rewrite Hf. vm_compute. reflexivity.
Defined.

(** Scenario C twice in a row: the log after the second run is the log of
    a single run. *)
Lemma rerun_overwrites_log_scenario_C :
  fs (final (run_script script (boot_ok Posix)
               (fs (final (run_script script (boot_ok Posix) (with_image Posix))))))
    !! log_file Posix
    = Some (File (log_text ("BOOT OK" +:+ nl) EmptyString)) /\
  fs (final (run_script script (boot_ok Posix) (with_image Posix)))
    !! log_file Posix
    = Some (File (log_text ("BOOT OK" +:+ nl) EmptyString)).
Proof.
  destruct (rerun_overwrites_log (boot_ok Posix) (with_image Posix)
              0 ("BOOT OK" +:+ nl) EmptyString (with_image Posix)
              0 ("BOOT OK" +:+ nl) EmptyString
              (fs (final (run_script script (boot_ok Posix) (with_image Posix)))))
    as (H1 & H2 & _).
  - vm_compute. reflexivity.
  - reflexivity.
  - vm_compute. reflexivity.
  - reflexivity.
  - split; [exact H2 | exact H1].
Defined.

End TempQemuCaptureMore.

(* ===================================================================== *)
(** * More on the image builder *)
(* ===================================================================== *)

Module CreateBootimageMore.
Import Py PyFacts CreateBootimage.

Section Run.

Variable env : Env.
Variable d : gmap string Entry.

Local Abbreviation fl := (os_flavour env).
Local Abbreviation kernel := (str fl (kernel_path fl)).
Local Abbreviation image := (str fl (output_path fl)).
Local Abbreviation creating := ("Creating UEFI boot image from " +:+ kernel +:+ nl).
Local Abbreviation created_text := ("✓ Boot image created: " +:+ image).
Local Abbreviation not_created_text := ("✗ Boot image was not created").
Local Abbreviation created := ("✓ Boot image created: " +:+ image +:+ nl).
Local Abbreviation warning_lines err :=
  (if truthy err then ["Warnings/Info: " +:+ err +:+ nl] else []).

(** X7. The script writes no file, on any path of [main]: the filesystem
    after a run is the one it started in if the builder was not reached,
    and otherwise exactly the one the builder left. *)
Theorem builder_never_writes :
  let r := run_script script env d in
  writes r = [] /\
  fs (final r) =
    if bool_decide (is_Some (d !! kernel)) then
      match spawn env (cmd fl) None d with
      | Exited _ _ _ d' => d'
      | SpawnRaises _ d' => d'
      end
    else d.
Proof.
  intros r. unfold r, writes. rewrite CreateBootimageSpec.main_run.
  destruct (bool_decide (is_Some (d !! kernel))); [|now split].
  destruct (spawn env (cmd fl) None d) as [rc out err d'|e d']; [|now split].
  destruct (bool_decide (rc ≠ 0)); [now split|]. cbn zeta.
  destruct (bool_decide (is_Some (d' !! image))), (truthy err),
    (stdout_refuses env created_text), (stdout_refuses env not_created_text);
    now split.
Qed.

(** X8. The builder is asked for at most once, always by the one command
    line and without a working directory of its own; it is asked for
    exactly when something exists at the kernel path. *)
Theorem builder_invoked_iff_kernel :
  spawn_calls (run_script script env d)
    = if bool_decide (is_Some (d !! kernel)) then [(cmd fl, None)] else [].
Proof.
  unfold spawn_calls. rewrite CreateBootimageSpec.main_run.
  destruct (bool_decide (is_Some (d !! kernel))); [|reflexivity].
  destruct (spawn env (cmd fl) None d) as [rc out err d'|e d']; [|reflexivity].
  destruct (bool_decide (rc ≠ 0)); [reflexivity|]. cbn zeta.
  destruct (bool_decide (is_Some (d' !! image))), (truthy err),
    (stdout_refuses env created_text), (stdout_refuses env not_created_text);
    reflexivity.
Qed.

(** X9. A build that went well relays what the builder said: its standard
    output on a line of its own and its standard error, when there is any,
    behind [Warnings/Info:]; text on the builder's standard error does not
    make the run fail. What follows depends on standard output: if it takes
    the check mark, the line naming the image is printed and the run ends
    normally; if it does not, the [UnicodeEncodeError] of that [print] ends
    the run and the line is missing. *)
Theorem success_relays_builder_output out err d' :
  is_Some (d !! kernel) ->
  spawn env (cmd fl) None d = Exited 0 out err d' ->
  is_Some (d' !! image) ->
  let r := run_script script env d in
  match stdout_refuses env created_text with
  | None =>
      result r = Ok tt /\
      printed r = [creating; out +:+ nl] ++ warning_lines err ++ [created]
  | Some e =>
      result r = Raise (ExnPlatform e) /\
      printed r = [creating; out +:+ nl] ++ warning_lines err
  end.
Proof.
  intros Hk Hs Hi r. unfold r, printed.
  rewrite CreateBootimageSpec.main_run, (bool_decide_eq_true_2 _ Hk), Hs.
  rewrite (bool_decide_eq_false_2 (0 ≠ 0)) by (intros N; now apply N).
  cbn zeta. rewrite (bool_decide_eq_true_2 _ Hi).
  destruct (stdout_refuses env created_text);
    cbn [result final trace]; now destruct (truthy err).
Qed.

(** X10. How [main] can end. It returns only after a build that went well
    and whose last line standard output took. It leaves through [sys.exit]
    with no code other than 1. A platform exception that ends it is either
    that of a builder that could not be run, or the [UnicodeEncodeError] of
    one of its two last lines, raised after the builder exited with status
    0: of the line naming the image if the image is there, of the line
    saying it was not created if it is not. No [CalledProcessError] leaves
    [main]. *)
Theorem builder_outcomes :
  match result (run_script script env d) with
  | Ok _ =>
      is_Some (d !! kernel) /\
      exists out err d',
        spawn env (cmd fl) None d = Exited 0 out err d' /\
        is_Some (d' !! image) /\
        stdout_refuses env created_text = None
  | Raise (SystemExit n) => n = 1
  | Raise (ExnPlatform e) =>
      is_Some (d !! kernel) /\
      ((exists d', spawn env (cmd fl) None d = SpawnRaises e d') \/
       (exists out err d',
          spawn env (cmd fl) None d = Exited 0 out err d' /\
          ((is_Some (d' !! image) /\ stdout_refuses env created_text = Some e) \/
           (d' !! image = None /\ stdout_refuses env not_created_text = Some e))))
  | Raise (ExnCalledProcessError _) => False
  end.
Proof.
  rewrite CreateBootimageSpec.main_run.
  destruct (bool_decide_reflect (is_Some (d !! kernel))) as [Hk|Hk];
    [|reflexivity].
  destruct (spawn env (cmd fl) None d) as [rc out err d'|e d'] eqn:Hs.
  2:{ cbn [result]. split; [exact Hk|]. left. now exists d'. }
  destruct (bool_decide_reflect (rc ≠ 0)) as [Hrc|Hrc]; [reflexivity|].
  assert (rc = 0) as -> by (destruct (decide (rc = 0)); [done | now destruct Hrc]).
  cbn zeta.
  destruct (bool_decide_reflect (is_Some (d' !! image))) as [Hi|Hi].
  - destruct (stdout_refuses env created_text) as [e|] eqn:Ho; cbn [result].
    + split; [exact Hk|]. right. exists out, err, d'. split; [reflexivity|].
      now left.
    + split; [exact Hk|]. now exists out, err, d'.
  - destruct (stdout_refuses env not_created_text) as [e|] eqn:Ho; cbn [result];
      [|reflexivity].
    split; [exact Hk|]. right. exists out, err, d'. split; [reflexivity|].
    right. split; [|reflexivity].
    destruct (d' !! image) eqn:E; [|reflexivity]. exfalso. apply Hi. now eexists.
Qed.

End Run.

(** X11. When the builder fails, what it wrote to its standard output is
    dropped: two failing builds with the same return code and the same
    standard error make the script print the same lines, whatever either
    builder wrote to its standard output. *)
Theorem failed_build_drops_stdout env d rc out1 out2 err d1 d2 sp2 wf2 so2 :
  is_Some (d !! str (os_flavour env) (kernel_path (os_flavour env))) ->
  rc ≠ 0 ->
  spawn env (cmd (os_flavour env)) None d = Exited rc out1 err d1 ->
  sp2 (cmd (os_flavour env)) None d = Exited rc out2 err d2 ->
  printed (run_script script env d)
    = printed (run_script script
                 (mkEnv (os_flavour env) (signal_name env) sp2 wf2 so2) d).
Proof.
  intros Hk Hrc Hs1 Hs2. unfold printed.
  rewrite !CreateBootimageSpec.main_run. cbn [os_flavour spawn].
  rewrite (bool_decide_eq_true_2 _ Hk), Hs1, Hs2.
  rewrite (bool_decide_eq_true_2 _ Hrc). reflexivity.
Qed.

Import Scenarios Scenarios.Builder MoreScenarios.

(** A build that succeeds with a warning. *)
Lemma success_relays_builder_output_warning :
  exit_status (run_script script (build_warns Posix) (with_kernel Posix)) = 0 /\
  printed (run_script script (build_warns Posix) (with_kernel Posix))
    = ["Creating UEFI boot image from target/x86_64-blog_os/debug/tiny_os" +:+ nl;
       "Created target/x86_64-blog_os/debug/tiny_os.efi.img" +:+ nl +:+ nl;
       "Warnings/Info: warning: unused variable" +:+ nl +:+ nl;
       "✓ Boot image created: target/x86_64-blog_os/debug/tiny_os.efi.img" +:+ nl].
Proof.
  destruct (success_relays_builder_output (build_warns Posix) (with_kernel Posix)
              ("Created " +:+ image_file Posix +:+ nl)
              ("warning: unused variable" +:+ nl)
              (<[ image_file Posix := File "IMAGE" ]> (with_kernel Posix)))
    as [Hr Hp].
  - vm_compute. now eexists.
  - reflexivity.
  - vm_compute. now eexists.
  - split; [|exact Hp]. unfold exit_status. now rewrite Hr.
Defined.

(** The quiet and the chatty failing build print the same. *)
Lemma failed_build_drops_stdout_chatty :
  printed (run_script script (build_fails Posix) (with_kernel Posix))
    = printed (run_script script (build_fails_chatty Posix) (with_kernel Posix)).
Proof.
  apply (failed_build_drops_stdout (build_fails Posix) (with_kernel Posix) 101
           EmptyString ("Compiling tiny_os" +:+ nl)
           ("error: could not compile" +:+ nl)
           (with_kernel Posix) (with_kernel Posix)
           (spawn (build_fails_chatty Posix)) writable utf8_stdout).
  - vm_compute. now eexists.
  - discriminate.
  - reflexivity.
  - reflexivity.
Defined.

End CreateBootimageMore.
